(** * Order ledger and product catalog: a shallow embedding

    The two services of the repository,
      - [src/services/order-svc/main.py]   (FastAPI, module [OrderSvc]),
      - [src/services/product-svc/app.py]  (Flask,   module [ProductSvc]),
    each keep one process-wide Python list of dicts.  A handler is modelled
    as a function from the current list to a response and the list left
    behind.  What the handlers draw from their environment ([uuid.uuid4()],
    [datetime.utcnow().isoformat()]) is an argument of the handler.

    Python [float]s are IEEE binary64 values: the kernel's primitive floats.
    Python [int]s are unbounded: [Z].  Requests are modelled once decoded:
    the order service receives what its pydantic models describe, the
    product service a JSON object whose known keys hold values of the types
    of the data model. *)

From Stdlib Require Import ZArith List String Ascii Bool Floats Lia.
Import ListNotations.

Set Warnings "-inexact-float".

Local Open Scope string_scope.
Local Open Scope Z_scope.

(** ** Python values shared by both services *)

Module Py.

(** Truth value of a [str]: the empty string is falsy. *)
Definition truthy (s : string) : bool := negb (s =? "")%string.

(** [float(n)] for an [int n]: the nearest binary64 value, ties to even;
    [OverflowError] (here [None]) when that value is not finite. *)
Definition float_of_int (n : Z) : option float :=
  let f := SF2Prim (binary_normalize prec emax n 0 false) in
  if is_infinity f then None else Some f.

(** [n * x] for an [int n] and a [float x]. *)
Definition int_mul_float (n : Z) (x : float) : option float :=
  match float_of_int n with
  | Some f => Some (f * x)%float
  | None => None
  end.

(** [sum(xs)] over floats: the summands are added one after the other to
    the start value 0, an [int] that the first addition turns into the
    float 0.0 (the sum of no summand, the [int] 0, is held as 0.0 too).
    The summands come from a generator: [None] is one whose evaluation
    raised, which ends the sum with that exception. *)
Fixpoint sum_from (acc : float) (xs : list (option float)) : option float :=
  match xs with
  | [] => Some acc
  | Some x :: xs' => sum_from (acc + x)%float xs'
  | None :: _ => None
  end.

Definition sum (xs : list (option float)) : option float := sum_from 0%float xs.

(** [next((x for x in l if p(x)), None)]. *)
Definition next {A : Type} (p : A -> bool) (l : list A) : option A := find p l.

(** The dict that [next] returned is mutated in place: in the list, the
    first element satisfying [p] becomes [f] of itself. *)
Fixpoint mutate_first {A : Type} (p : A -> bool) (f : A -> A) (l : list A) : list A :=
  match l with
  | [] => []
  | x :: l' => if p x then f x :: l' else x :: mutate_first p f l'
  end.

End Py.

(** ** The order service *)

Module OrderSvc.

(** [class OrderItem(BaseModel)] *)
Record OrderItem : Type := mkOrderItem {
  product_id : string;
  quantity : Z;
  price : float
}.

(** [class OrderCreate(BaseModel)] *)
Record OrderCreate : Type := mkOrderCreate {
  oc_user_id : string;
  oc_items : list OrderItem;
  oc_shipping_address : string
}.

(** A stored order: the dict built by [create_order] or written in the seed.
    The key [updated_at] is absent until [update_order_status] sets it. *)
Record Order : Type := mkOrder {
  id : string;
  user_id : string;
  items : list OrderItem;
  total_amount : float;
  status : string;
  shipping_address : string;
  created_at : string;
  updated_at : option string
}.

(** The module-level list [orders]. *)
Definition orders : list Order :=
  [ {| id := "order-1";
       user_id := "1";
       items := [ {| product_id := "1"; quantity := 1; price := 999.99 |};
                  {| product_id := "4"; quantity := 2; price := 149.99 |} ];
       total_amount := 1299.97;
       status := "completed";
       shipping_address := "123 Main St, City, State";
       created_at := "2024-01-15T10:30:00Z";
       updated_at := None |};
    {| id := "order-2";
       user_id := "2";
       items := [ {| product_id := "2"; quantity := 1; price := 699.99 |} ];
       total_amount := 699.99;
       status := "pending";
       shipping_address := "456 Oak Ave, Town, State";
       created_at := "2024-01-16T14:20:00Z";
       updated_at := None |} ].

(** What a handler answers: a body with its status code, or an exception
    that the framework turns into an error response.  Writing the answer
    out as JSON is the framework's and is not part of the model: an answer
    that holds a float JSON cannot carry (a NaN, an infinity) may reach the
    client as a 500 instead, after the handler has done its work. *)
Inductive failure : Type :=
| RequestValidationError            (* the body does not fit [OrderCreate]: 422 *)
| HTTPException (status_code : Z) (detail : string)
| OverflowError.                    (* uncaught: 500 *)

Definition status_code_of (e : failure) : Z :=
  match e with
  | RequestValidationError => 422
  | HTTPException c _ => c
  | OverflowError => 500
  end.

Inductive response (A : Type) : Type :=
| Ok (code : Z) (body : A)
| Raise (e : failure).
Arguments Ok {A} code body.
Arguments Raise {A} e.

(** The error taxonomy: a validation error is answered 400 or 422, a
    missing id 404. *)
Definition ValidationError {A : Type} (r : response A) : Prop :=
  exists e, r = Raise e /\ (status_code_of e = 400 \/ status_code_of e = 422).

Definition NotFound {A : Type} (r : response A) : Prop :=
  exists e, r = Raise e /\ status_code_of e = 404.

(** The envelope of a list answer. *)
Record listing : Type := mkListing {
  l_service : string;
  l_data : list Order;
  l_count : nat;
  l_timestamp : string
}.

(** The envelope of a single-order answer. *)
Record single : Type := mkSingle {
  s_service : string;
  s_data : Order
}.

(** [Field(gt=0)] on [quantity] and on [price]. *)
Definition item_ok (it : OrderItem) : bool :=
  (0 <? quantity it) && (0 <? price it)%float.

(** The constraints FastAPI checks on the body before [create_order] runs. *)
Definition body_ok (d : OrderCreate) : bool := forallb item_ok (oc_items d).

(** [GET /orders] *)
Definition get_orders (q_user_id q_status : option string) (now : string)
    (st : list Order) : response listing * list Order :=
  let filtered_orders := st in
  let filtered_orders :=
    match q_user_id with
    | Some u => if Py.truthy u
                then filter (fun o => (user_id o =? u)%string) filtered_orders
                else filtered_orders
    | None => filtered_orders
    end in
  let filtered_orders :=
    match q_status with
    | Some s => if Py.truthy s
                then filter (fun o => (status o =? s)%string) filtered_orders
                else filtered_orders
    | None => filtered_orders
    end in
  (Ok 200 {| l_service := "order-service";
             l_data := filtered_orders;
             l_count := List.length filtered_orders;
             l_timestamp := now |}, st).

(** [GET /orders/{order_id}] *)
Definition get_order (order_id : string) (st : list Order)
    : response single * list Order :=
  match Py.next (fun o => (id o =? order_id)%string) st with
  | None => (Raise (HTTPException 404 "Order not found"), st)
  | Some order => (Ok 200 {| s_service := "order-service"; s_data := order |}, st)
  end.

(** [sum(item.quantity * item.price for item in order_data.items)] *)
Definition order_total (its : list OrderItem) : option float :=
  Py.sum (map (fun it => Py.int_mul_float (quantity it) (price it)) its).

(** [POST /orders]; [uuid] is the text of [uuid.uuid4()]. *)
Definition create_order (uuid now : string) (order_data : OrderCreate)
    (st : list Order) : response single * list Order :=
  if negb (body_ok order_data) then (Raise RequestValidationError, st)
  else
    match order_total (oc_items order_data) with
    | None => (Raise OverflowError, st)
    | Some total =>
        let new_order :=
          {| id := "order-" ++ uuid;
             user_id := oc_user_id order_data;
             items := oc_items order_data;
             total_amount := total;
             status := "pending";
             shipping_address := oc_shipping_address order_data;
             created_at := now;
             updated_at := None |} in
        (Ok 201 {| s_service := "order-service"; s_data := new_order |},
         (st ++ [new_order])%list)
    end.

Definition valid_statuses : list string :=
  ["pending"; "processing"; "shipped"; "delivered"; "cancelled"].

(** [status in valid_statuses] *)
Definition is_valid_status (s : string) : bool :=
  existsb (fun v => (v =? s)%string) valid_statuses.

Definition set_status (s now : string) (o : Order) : Order :=
  {| id := id o;
     user_id := user_id o;
     items := items o;
     total_amount := total_amount o;
     status := s;
     shipping_address := shipping_address o;
     created_at := created_at o;
     updated_at := Some now |}.

(** [PUT /orders/{order_id}/status] *)
Definition update_order_status (order_id new_status now : string)
    (st : list Order) : response single * list Order :=
  if negb (is_valid_status new_status) then
    (Raise (HTTPException 400
       "Invalid status. Must be one of: ['pending', 'processing', 'shipped', 'delivered', 'cancelled']"),
     st)
  else
    match Py.next (fun o => (id o =? order_id)%string) st with
    | None => (Raise (HTTPException 404 "Order not found"), st)
    | Some order =>
        (Ok 200 {| s_service := "order-service";
                   s_data := set_status new_status now order |},
         Py.mutate_first (fun o => (id o =? order_id)%string)
                         (set_status new_status now) st)
    end.

(** [DELETE /orders/{order_id}] *)
Definition cancel_order (order_id : string) (st : list Order)
    : response unit * list Order :=
  (Ok 204 tt, filter (fun o => negb (id o =? order_id)%string) st).

(** The requests the ledger serves, and the ledger each one leaves. *)
Inductive request : Type :=
| GetOrders (q_user_id q_status : option string) (now : string)
| GetOrder (order_id : string)
| CreateOrder (uuid now : string) (order_data : OrderCreate)
| UpdateOrderStatus (order_id new_status now : string)
| CancelOrder (order_id : string).

Definition step (r : request) (st : list Order) : list Order :=
  match r with
  | GetOrders u s now => snd (get_orders u s now st)
  | GetOrder i => snd (get_order i st)
  | CreateOrder uuid now d => snd (create_order uuid now d st)
  | UpdateOrderStatus i s now => snd (update_order_status i s now st)
  | CancelOrder i => snd (cancel_order i st)
  end.

(** The ledgers the process can be in: the seed, and whatever a request
    leaves behind. *)
Inductive reachable : list Order -> Prop :=
| reach_seed : reachable orders
| reach_step : forall r st, reachable st -> reachable (step r st).




(** Example data. *)

(** The body of the spec's example: one item at 999.99 and two at 149.99. *)
Definition example_body : OrderCreate :=
  {| oc_user_id := "7";
     oc_items := [ {| product_id := "1"; quantity := 1; price := 999.99 |};
                   {| product_id := "4"; quantity := 2; price := 149.99 |} ];
     oc_shipping_address := "1 High St" |}.


(** A body without items. *)
Definition empty_body : OrderCreate :=
  {| oc_user_id := "1"; oc_items := []; oc_shipping_address := "123 Main St" |}.

(** A body whose quantity, 2^1024, is too large for a float. *)
Definition huge_body : OrderCreate :=
  {| oc_user_id := "1";
     oc_items := [ {| product_id := "3"; quantity := 2 ^ 1024; price := 19.99 |} ];
     oc_shipping_address := "123 Main St" |}.

(** The seeded ledger once order-2 has been cancelled. *)
Definition cancelled_ledger : list Order :=
  step (UpdateOrderStatus "order-2" "cancelled" "2024-02-01T00:00:00") orders.

Definition order_2_cancelled : Order :=
  {| id := "order-2"; user_id := "2";
     items := [ {| product_id := "2"; quantity := 1; price := 699.99 |} ];
     total_amount := 699.99; status := "cancelled";
     shipping_address := "456 Oak Ave, Town, State";
     created_at := "2024-01-16T14:20:00Z";
     updated_at := Some "2024-02-01T00:00:00" |}.

(** *** The rest of the service *)

(** The answer of [GET /health]. *)
Record health : Type := mkHealth {
  h_status : string;
  h_service : string;
  h_version : string;
  h_timestamp : string
}.

(** [GET /health] *)
Definition health_check (now : string) : response health :=
  Ok 200 {| h_status := "healthy";
            h_service := "order-service";
            h_version := "1.0.0";
            h_timestamp := now |}.

(** The uuid of a create request gives an id that no stored order has;
    other requests generate no id. *)
Definition fresh (r : request) (st : list Order) : bool :=
  match r with
  | CreateOrder uuid _ _ => negb (existsb (fun o => (id o =? "order-" ++ uuid)%string) st)
  | _ => true
  end.

(** The ledger after a sequence of requests, served in order. *)
Definition run (rs : list request) (st : list Order) : list Order :=
  fold_left (fun s r => step r s) rs st.

(** Each request of the sequence is [fresh] for the ledger it meets. *)
Fixpoint all_fresh (rs : list request) (st : list Order) : bool :=
  match rs with
  | [] => true
  | r :: rs' => fresh r st && all_fresh rs' (step r st)
  end.

(** Every item of an order has a positive quantity and a positive price. *)
Definition items_positive (o : Order) : Prop :=
  forall it, In it (items o) -> 0 < quantity it /\ (0 <? price it)%float = true.

(** More example data. *)
Definition nan_price_body : OrderCreate :=
  {| oc_user_id := "1";
     oc_items := [ {| product_id := "3"; quantity := 1; price := nan |} ];
     oc_shipping_address := "123 Main St" |}.

Definition order_2 : Order :=
  {| id := "order-2"; user_id := "2";
     items := [ {| product_id := "2"; quantity := 1; price := 699.99 |} ];
     total_amount := 699.99; status := "pending";
     shipping_address := "456 Oak Ave, Town, State";
     created_at := "2024-01-16T14:20:00Z";
     updated_at := None |}.

End OrderSvc.

(** ** The product service *)

Module ProductSvc.

(** A JSON number as [request.get_json()] hands it over: an [int] or a
    [float]. *)
Inductive number : Type :=
| Int (n : Z)
| Float (x : float).

(** [float(v)]; [None] stands for the [OverflowError] of an [int] too large. *)
Definition py_float (v : number) : option float :=
  match v with
  | Int n => Py.float_of_int n
  | Float x => Some x
  end.

(** A stored product.  The seed records carry neither [created_at] nor
    [updated_at]; [create_product] sets the first, [update_product] the
    second. *)
Record Product : Type := mkProduct {
  id : string;
  name : string;
  price : float;
  category : string;
  stock : Z;
  created_at : option string;
  updated_at : option string
}.

(** The module-level list [products]. *)
Definition products : list Product :=
  [ {| id := "1"; name := "Laptop"; price := 999.99; category := "Electronics";
       stock := 50; created_at := None; updated_at := None |};
    {| id := "2"; name := "Phone"; price := 699.99; category := "Electronics";
       stock := 100; created_at := None; updated_at := None |};
    {| id := "3"; name := "Book"; price := 19.99; category := "Books";
       stock := 200; created_at := None; updated_at := None |};
    {| id := "4"; name := "Headphones"; price := 149.99; category := "Electronics";
       stock := 75; created_at := None; updated_at := None |} ].

(** The JSON object of a request body, read at the keys the handlers look
    up, with the values typed as the data model types them (a name and a
    category are strings, a price is a number, a stock is an integer);
    [extra] lists the other keys of the object. *)
Record fields : Type := mkFields {
  f_name : option string;
  f_price : option number;
  f_category : option string;
  f_stock : option Z;
  extra : list string
}.

(** [not data]: a dict is falsy when it has no key. *)
Definition no_data (data : fields) : bool :=
  match f_name data, f_price data, f_category data, f_stock data, extra data with
  | None, None, None, None, [] => true
  | _, _, _, _, _ => false
  end.

(** [data.get(k, default)] *)
Definition get {A : Type} (field : option A) (default : A) : A :=
  match field with
  | Some v => v
  | None => default
  end.

(** What [jsonify] is given. *)
Inductive payload : Type :=
| Listing (service : string) (data : list Product) (count : nat) (timestamp : string)
| Single (service : string) (data : Product)
| Error (error : string)
| Empty.

(** A Flask answer: the payload and the status code. *)
Definition response : Type := payload * Z.

(** [@app.errorhandler(500)]: the answer to an uncaught exception. *)
Definition internal_error : response := (Error "Internal server error", 500).

(** A missing id is answered 404. *)
Definition NotFound (r : response) : Prop := snd r = 404.

Section Handlers.

(** [str.lower] *)
Variable lower : string -> string.

(** [GET /products]; the arguments are [request.args.get('category')],
    [request.args.get('min_price', type=float)] and
    [request.args.get('max_price', type=float)]. *)
Definition get_products (q_category : option string) (min_price max_price : option float)
    (now : string) (st : list Product) : response * list Product :=
  let filtered_products := st in
  let filtered_products :=
    match q_category with
    | Some c => if Py.truthy c
                then filter (fun p => (lower (category p) =? lower c)%string)
                            filtered_products
                else filtered_products
    | None => filtered_products
    end in
  let filtered_products :=
    match min_price with            (* [p['price'] >= min_price] *)
    | Some m => filter (fun p => (m <=? price p)%float) filtered_products
    | None => filtered_products
    end in
  let filtered_products :=
    match max_price with
    | Some m => filter (fun p => (price p <=? m)%float) filtered_products
    | None => filtered_products
    end in
  ((Listing "product-service" filtered_products (List.length filtered_products) now,
    200), st).

End Handlers.

(** [GET /products/<product_id>] *)
Definition get_product (product_id : string) (st : list Product)
    : response * list Product :=
  match Py.next (fun p => (id p =? product_id)%string) st with
  | None => ((Error "Product not found", 404), st)
  | Some product => ((Single "product-service" product, 200), st)
  end.

(** [POST /products]; [uuid] is [str(uuid.uuid4())].  The guard
    [not data or not all(k in data for k in ['name', 'price', 'category'])]
    holds exactly when one of the three keys is missing: a dict that has
    them is not empty. *)
Definition create_product (uuid now : string) (data : fields) (st : list Product)
    : response * list Product :=
  match f_name data, f_price data, f_category data with
  | Some n, Some v, Some c =>
      match py_float v with
      | None => (internal_error, st)
      | Some x =>
          let new_product :=
            {| id := uuid;
               name := n;
               price := x;
               category := c;
               stock := get (f_stock data) 0;
               created_at := Some now;
               updated_at := None |} in
          ((Single "product-service" new_product, 201), (st ++ [new_product])%list)
      end
  | _, _, _ => ((Error "Name, price, and category are required", 400), st)
  end.

(** The dict given to [product.update], once [float] has returned [x]. *)
Definition merge (data : fields) (x : float) (now : string) (product : Product)
    : Product :=
  {| id := id product;
     name := get (f_name data) (name product);
     price := x;
     category := get (f_category data) (category product);
     stock := get (f_stock data) (stock product);
     created_at := created_at product;
     updated_at := Some now |}.

(** [float(data.get('price', product['price']))]: the stored price is a
    float already, which [float] returns as it is. *)
Definition new_price (data : fields) (product : Product) : option float :=
  match f_price data with
  | Some v => py_float v
  | None => Some (price product)
  end.

(** [PUT /products/<product_id>] *)
Definition update_product (product_id now : string) (data : fields)
    (st : list Product) : response * list Product :=
  match Py.next (fun p => (id p =? product_id)%string) st with
  | None => ((Error "Product not found", 404), st)
  | Some product =>
      if no_data data then ((Error "No data provided", 400), st)
      else
        match new_price data product with
        | None => (internal_error, st)
        | Some x =>
            ((Single "product-service" (merge data x now product), 200),
             Py.mutate_first (fun p => (id p =? product_id)%string)
                             (merge data x now) st)
        end
  end.

(** [DELETE /products/<product_id>] *)
Definition delete_product (product_id : string) (st : list Product)
    : response * list Product :=
  ((Empty, 204), filter (fun p => negb (id p =? product_id)%string) st).

(** The requests that write to the catalog, and the catalog each leaves. *)
Inductive request : Type :=
| CreateProduct (uuid now : string) (data : fields)
| UpdateProduct (product_id now : string) (data : fields)
| DeleteProduct (product_id : string).

Definition step (r : request) (st : list Product) : list Product :=
  match r with
  | CreateProduct uuid now d => snd (create_product uuid now d st)
  | UpdateProduct i now d => snd (update_product i now d st)
  | DeleteProduct i => snd (delete_product i st)
  end.

(** The catalog after a sequence of requests, served in order. *)
Definition run (rs : list request) (st : list Product) : list Product :=
  fold_left (fun s r => step r s) rs st.




(** The ASCII reading of [str.lower], for the examples. *)
Definition ascii_lower (c : ascii) : ascii :=
  let n := nat_of_ascii c in
  if (Nat.leb 65 n && Nat.leb n 90)%bool then ascii_of_nat (n + 32) else c.

Fixpoint lower_ascii (s : string) : string :=
  match s with
  | EmptyString => EmptyString
  | String c s' => String (ascii_lower c) (lower_ascii s')
  end.

(** The listing in the specification's words: the products, in the
    catalog's order, that satisfy every predicate of a supplied filter. *)
Definition satisfies (lower : string -> string) (q_category : option string)
    (min_price max_price : option float) (p : Product) : bool :=
  match q_category with
  | Some c => (lower (category p) =? lower c)%string
  | None => true
  end
  && match min_price with
     | Some m => (m <=? price p)%float
     | None => true
     end
  && match max_price with
     | Some m => (price p <=? m)%float
     | None => true
     end.

Definition listProducts (lower : string -> string) (q_category : option string)
    (min_price max_price : option float) (st : list Product) : list Product :=
  filter (satisfies lower q_category min_price max_price) st.

(** A category filter that counts: one that is given and not empty. *)
Definition effective (q_category : option string) : option string :=
  match q_category with
  | Some c => if Py.truthy c then Some c else None
  | None => None
  end.

(** The products of a list answer. *)
Definition listed (r : response) : list Product :=
  match fst r with
  | Listing _ data _ _ => data
  | _ => []
  end.

(** Example data. *)
Definition gift : fields :=
  {| f_name := Some "Gift"; f_price := Some (Float (-5)); f_category := Some "Misc";
     f_stock := None; extra := [] |}.

Definition pen : fields :=
  {| f_name := Some "Pen"; f_price := Some (Int 2); f_category := Some "Office";
     f_stock := Some 10; extra := [] |}.

Definition laptop : Product :=
  {| id := "1"; name := "Laptop"; price := 999.99; category := "Electronics";
     stock := 50; created_at := None; updated_at := None |}.

Definition discount : fields :=
  {| f_name := None; f_price := Some (Int 900); f_category := None;
     f_stock := Some 49; extra := [] |}.

Definition overpriced : fields :=
  {| f_name := None; f_price := Some (Int (2 ^ 1024)); f_category := None;
     f_stock := None; extra := [] |}.

(** *** The rest of the service *)

(** The answer of [GET /health]: status, service, version, timestamp. *)
Definition health_check (now : string) : (string * string * string * string) * Z :=
  (("healthy", "product-service", "1.0.0", now), 200).

(** [@app.errorhandler(404)]: the answer to a path no route matches. *)
Definition not_found : response := (Error "Endpoint not found", 404).

(** The uuid of a create request is the id of no stored product; other
    requests generate no id. *)
Definition fresh (r : request) (st : list Product) : bool :=
  match r with
  | CreateProduct uuid _ _ => negb (existsb (fun p => (id p =? uuid)%string) st)
  | _ => true
  end.

(** Each request of the sequence is [fresh] for the catalog it meets. *)
Fixpoint all_fresh (rs : list request) (st : list Product) : bool :=
  match rs with
  | [] => true
  | r :: rs' => fresh r st && all_fresh rs' (step r st)
  end.

(** More example data. *)
Definition no_fields : fields :=
  {| f_name := None; f_price := None; f_category := None;
     f_stock := None; extra := [] |}.

End ProductSvc.

(** * Properties *)

(** ** Lists and floats *)

Module PyFacts.

Import Py.

Lemma next_some {A : Type} (p : A -> bool) (l : list A) (x : A) :
  next p l = Some x -> In x l /\ p x = true.
Proof. unfold next. apply find_some. Qed.

Lemma mutate_first_In {A : Type} (p : A -> bool) (f : A -> A) (l : list A) (x : A) :
  In x (mutate_first p f l) -> In x l \/ exists y, In y l /\ p y = true /\ x = f y.
Proof.
  induction l as [|a l IH]; simpl; [tauto|].
  destruct (p a) eqn:Ha; simpl.
  - intros [<-|Hx]; [right; exists a; auto | auto].
  - intros [<-|Hx]; [auto|].
    destruct (IH Hx) as [H|(y & Hy & Hp & ->)]; [auto|].
    right. exists y. auto.
Qed.

Lemma mutate_first_map {A B : Type} (p : A -> bool) (f : A -> A) (g : A -> B)
    (l : list A) :
  (forall x, g (f x) = g x) -> map g (mutate_first p f l) = map g l.
Proof.
  intros Hg. induction l as [|a l IH]; simpl; [reflexivity|].
  destruct (p a); simpl; [now rewrite Hg | now rewrite IH].
Qed.

(** With distinct keys, mutating the first match is mutating every match. *)
Lemma mutate_first_NoDup {A : Type} (key : A -> string) (k : string) (f : A -> A)
    (l : list A) :
  NoDup (map key l) ->
  mutate_first (fun x => (key x =? k)%string) f l
  = map (fun x => if (key x =? k)%string then f x else x) l.
Proof.
  induction l as [|a l IH]; simpl; [reflexivity|].
  intros Hnd. inversion Hnd as [|? ? Hnotin Hnd']; subst.
  destruct (key a =? k)%string eqn:Ha.
  - f_equal. apply String.eqb_eq in Ha. subst k.
    clear IH Hnd Hnd'. induction l as [|b l IHl]; simpl; [reflexivity|].
    simpl in Hnotin.
    destruct (key b =? key a)%string eqn:Hb.
    + apply String.eqb_eq in Hb. exfalso. apply Hnotin. now left.
    + f_equal. apply IHl. intros H. apply Hnotin. now right.
  - f_equal. now apply IH.
Qed.

(** With distinct keys, an element is the only one under its key. *)
Lemma NoDup_key_eq {A : Type} (key : A -> string) (l : list A) (x y : A) :
  NoDup (map key l) -> In x l -> In y l -> key x = key y -> x = y.
Proof.
  induction l as [|a l IH]; simpl; [tauto|].
  intros Hnd Hx Hy He. inversion Hnd as [|? ? Hnotin Hnd']; subst.
  destruct Hx as [->|Hx], Hy as [->|Hy]; auto.
  - exfalso. apply Hnotin. rewrite He. now apply in_map.
  - exfalso. apply Hnotin. rewrite <- He. now apply in_map.
Qed.

(** So the element [x] becomes [f x] where it stands, and nothing else
    changes. *)
Lemma mutate_first_at {A : Type} (key : A -> string) (f : A -> A) (l : list A)
    (x : A) :
  NoDup (map key l) -> In x l ->
  mutate_first (fun y => (key y =? key x)%string) f l
  = map (fun y => if (key y =? key x)%string then f x else y) l.
Proof.
  intros Hnd Hin. rewrite (mutate_first_NoDup key (key x) f l Hnd).
  apply map_ext_in. intros y Hy.
  destruct (key y =? key x)%string eqn:He; [|reflexivity].
  apply String.eqb_eq in He. f_equal. now apply (NoDup_key_eq key l).
Qed.

Lemma filter_filter {A : Type} (p q : A -> bool) (l : list A) :
  filter q (filter p l) = filter (fun x => p x && q x) l.
Proof.
  induction l as [|a l IH]; simpl; [reflexivity|].
  destruct (p a); simpl; [destruct (q a); now rewrite IH | exact IH].
Qed.

Lemma filter_all {A : Type} (l : list A) : filter (fun _ => true) l = l.
Proof. induction l as [|a l IH]; simpl; [reflexivity | now rewrite IH]. Qed.

Lemma next_NoDup {A : Type} (key : A -> string) (l : list A) (x : A) :
  NoDup (map key l) -> In x l ->
  next (fun y => (key y =? key x)%string) l = Some x.
Proof.
  unfold next. induction l as [|a l IH]; simpl; [tauto|].
  intros Hnd Hin. inversion Hnd as [|? ? Hnotin Hnd']; subst.
  destruct Hin as [->|Hin].
  - now rewrite String.eqb_refl.
  - destruct (key a =? key x)%string eqn:Ha.
    + apply String.eqb_eq in Ha. exfalso. apply Hnotin. rewrite Ha.
      now apply in_map.
    + now apply IH.
Qed.

Lemma filter_twice {A : Type} (p : A -> bool) (l : list A) :
  filter p (filter p l) = filter p l.
Proof.
  induction l as [|a l IH]; simpl; [reflexivity|].
  destruct (p a) eqn:Ha; simpl; [rewrite Ha; now f_equal | exact IH].
Qed.

Lemma next_after_filter_out {A : Type} (p : A -> bool) (l : list A) :
  next p (filter (fun x => negb (p x)) l) = None.
Proof.
  unfold next. induction l as [|a l IH]; simpl; [reflexivity|].
  destruct (p a) eqn:Ha; simpl; [exact IH | now rewrite Ha].
Qed.


End PyFacts.

(** ** The order ledger *)

Module OrderFacts.

Import Py PyFacts OrderSvc.

Lemma is_valid_status_In (s : string) :
  is_valid_status s = true <-> In s valid_statuses.
Proof.
  unfold is_valid_status. rewrite existsb_exists. split.
  - intros (v & Hv & He). apply String.eqb_eq in He. now subst.
  - intros H. exists s. split; [exact H | apply String.eqb_refl].
Qed.

Lemma is_valid_status_not_In (s : string) :
  is_valid_status s = false <-> ~ In s valid_statuses.
Proof.
  rewrite <- is_valid_status_In. destruct (is_valid_status s); split; congruence.
Qed.




(** Every order [create_order] leaves in the ledger was there before, or is
    the one it built from the body. *)
Lemma create_order_In (uuid now : string) (d : OrderCreate) (st : list Order)
    (o : Order) :
  In o (snd (create_order uuid now d st)) ->
  In o st \/ (items o = oc_items d /\ order_total (oc_items d) = Some (total_amount o)
              /\ status o = "pending").
Proof.
  unfold create_order. destruct (negb (body_ok d)); simpl; [auto|].
  destruct (order_total (oc_items d)) as [total|] eqn:Htot; simpl; [|auto].
  rewrite in_app_iff. simpl. intros [H|[<-|[]]]; [auto|]. right. simpl. auto.
Qed.

(** Every order [update_order_status] leaves in the ledger was there
    before, or is one of them with the new status. *)
Lemma update_order_status_In (i s now : string) (st : list Order) (o : Order) :
  In o (snd (update_order_status i s now st)) ->
  In o st \/ (In s valid_statuses /\ exists o0, In o0 st /\ o = set_status s now o0).
Proof.
  unfold update_order_status. destruct (is_valid_status s) eqn:Hs; simpl; [|auto].
  destruct (next _ st) eqn:Hn; simpl; [|auto].
  intros H. apply mutate_first_In in H. destruct H as [H|(y & Hy & _ & ->)]; [auto|].
  right. split; [now apply is_valid_status_In|]. eauto.
Qed.





Example example_total : order_total (oc_items example_body) = Some 1299.97%float.
Proof. vm_compute. reflexivity. Qed.

(** The largest int that [float] accepts is the one just below
    2^1024 - 2^970; from there on [int * float] raises and the handler
    leaves the ledger alone. *)
Example float_of_int_limit :
  float_of_int (2 ^ 1024 - 2 ^ 970 - 1) = Some 0x1.fffffffffffffp+1023%float /\
  float_of_int (2 ^ 1024 - 2 ^ 970) = None.
Proof. split; vm_compute; reflexivity. Qed.

Example create_order_overflow :
  create_order "u" "2024-02-01T00:00:00" huge_body orders = (Raise OverflowError, orders).
Proof. vm_compute. reflexivity. Qed.







(** Requests keep every status inside [valid_statuses], once it is there:
    [create_order] writes "pending", [update_order_status] writes only what
    it has checked. *)
Lemma step_keeps_valid_status (r : request) (st : list Order) :
  (forall o, In o st -> In (status o) valid_statuses) ->
  forall o, In o (step r st) -> In (status o) valid_statuses.
Proof.
  intros Hst o. destruct r as [u s now|i|uuid now d|i s now|i]; simpl.
  - apply Hst.
  - unfold get_order. destruct (next _ st); simpl; apply Hst.
  - intros H. apply create_order_In in H.
    destruct H as [H|(_ & _ & Hp)]; [now apply Hst|].
    rewrite Hp. simpl. auto.
  - intros H. apply update_order_status_In in H.
    destruct H as [H|(Hs & o0 & _ & ->)]; [now apply Hst | exact Hs].
  - intros H. apply filter_In in H. now apply Hst.
Qed.

(** C3, at the seed. The ledger the process starts with is reachable and
    holds order-1, whose status "completed" is not one of
    [valid_statuses]. *)
Theorem seed_status_not_valid :
  reachable orders /\
  exists o, In o orders /\ id o = "order-1" /\ status o = "completed" /\
            ~ In (status o) valid_statuses.
Proof.
  split; [exact reach_seed|].
  eexists. split; [left; reflexivity|]. simpl.
  repeat split. intros H. repeat (destruct H as [H|H]; [discriminate H|]).
  exact H.
Qed.

(** C6. Whatever the order id, a [new_status] outside [valid_statuses] is
    answered 400, a validation error, and the ledger is left as it was: the
    same orders with the same fields, so that looking the order up gives
    what it gave before. *)
Theorem update_order_status_invalid (order_id new_status now : string)
    (st : list Order) :
  ~ In new_status valid_statuses ->
  ValidationError (fst (update_order_status order_id new_status now st)) /\
  (exists detail, fst (update_order_status order_id new_status now st)
                  = Raise (HTTPException 400 detail)) /\
  snd (update_order_status order_id new_status now st) = st /\
  get_order order_id (snd (update_order_status order_id new_status now st))
  = get_order order_id st.
Proof.
  intros H. apply is_valid_status_not_In in H.
  unfold update_order_status. rewrite H. simpl.
  split; [|split; [|split]]; try reflexivity.
  - eexists. split; [reflexivity|]. simpl. auto.
  - eexists. reflexivity.
Qed.

Lemma update_order_status_invalid_witness :
  ValidationError (fst (update_order_status "order-2" "bogus" "2024-02-01T00:00:00" orders)) /\
  (exists detail, fst (update_order_status "order-2" "bogus" "2024-02-01T00:00:00" orders)
                  = Raise (HTTPException 400 detail)) /\
  snd (update_order_status "order-2" "bogus" "2024-02-01T00:00:00" orders) = orders /\
  get_order "order-2" (snd (update_order_status "order-2" "bogus" "2024-02-01T00:00:00" orders))
  = get_order "order-2" orders.
Proof.
  apply (update_order_status_invalid "order-2" "bogus" "2024-02-01T00:00:00" orders).
  simpl. intros H. repeat (destruct H as [H|H]; [discriminate H|]). exact H.
Defined.

(** The order that [next] finds gets the new status, where it stands. *)
Lemma update_order_status_found (order_id new_status now : string)
    (st : list Order) (o : Order) :
  In new_status valid_statuses ->
  next (fun x => (id x =? order_id)%string) st = Some o ->
  update_order_status order_id new_status now st =
    (Ok 200 {| s_service := "order-service"; s_data := set_status new_status now o |},
     mutate_first (fun x => (id x =? order_id)%string) (set_status new_status now) st).
Proof.
  intros Hs Hn. apply is_valid_status_In in Hs.
  unfold update_order_status. now rewrite Hs, Hn.
Qed.

(** C7. For an order [o] of a ledger with distinct ids and a [new_status]
    of [valid_statuses], [update_order_status] answers 200 whatever the
    status of [o] is: the order it returns is [o] with [status] set to
    [new_status] and [updated_at] set to the time of the call and the other
    fields as they were, it stands in the ledger where [o] stood, and the
    other orders are unchanged. *)
Theorem update_order_status_any_transition (st : list Order) (o : Order)
    (new_status now : string) :
  In o st -> NoDup (map id st) -> In new_status valid_statuses ->
  exists o',
    update_order_status (id o) new_status now st =
      (Ok 200 {| s_service := "order-service"; s_data := o' |},
       map (fun x => if (id x =? id o)%string then o' else x) st) /\
    status o' = new_status /\ updated_at o' = Some now /\
    id o' = id o /\ user_id o' = user_id o /\ items o' = items o /\
    total_amount o' = total_amount o /\ shipping_address o' = shipping_address o /\
    created_at o' = created_at o.
Proof.
  intros Hin Hnd Hs. exists (set_status new_status now o).
  split; [|repeat split].
  rewrite (update_order_status_found (id o) new_status now st o Hs
             (next_NoDup id st o Hnd Hin)).
  f_equal. now apply mutate_first_at.
Qed.

(** A cancelled order can be moved to "shipped". *)
Lemma update_order_status_any_transition_witness :
  exists o',
    update_order_status (id order_2_cancelled) "shipped" "2024-02-02T00:00:00"
                        cancelled_ledger =
      (Ok 200 {| s_service := "order-service"; s_data := o' |},
       map (fun x => if (id x =? id order_2_cancelled)%string then o' else x)
           cancelled_ledger) /\
    status o' = "shipped" /\ updated_at o' = Some "2024-02-02T00:00:00" /\
    id o' = id order_2_cancelled /\ user_id o' = user_id order_2_cancelled /\
    items o' = items order_2_cancelled /\
    total_amount o' = total_amount order_2_cancelled /\
    shipping_address o' = shipping_address order_2_cancelled /\
    created_at o' = created_at order_2_cancelled.
Proof.
  apply (update_order_status_any_transition cancelled_ledger order_2_cancelled
           "shipped" "2024-02-02T00:00:00").
  - right. left. reflexivity.
  - vm_compute. repeat constructor; simpl; intuition discriminate.
  - simpl. tauto.
Defined.

End OrderFacts.

(** ** The product catalog *)

Module ProductFacts.

Import Py PyFacts ProductSvc.

(** The handler computes the specification's listing for the filters that
    count. *)
Lemma get_products_listing (lower : string -> string) (c : option string)
    (mn mx : option float) (now : string) (st : list Product) :
  get_products lower c mn mx now st =
    ((Listing "product-service" (listProducts lower (effective c) mn mx st)
        (List.length (listProducts lower (effective c) mn mx st)) now, 200), st).
Proof.
  unfold get_products. cbv zeta.
  match goal with
  | |- ((Listing _ ?l _ _, _), _) = _ =>
      assert (H : l = listProducts lower (effective c) mn mx st)
  end.
  { unfold listProducts, satisfies, effective.
    destruct c as [c|]; [destruct (truthy c)|]; destruct mn, mx;
      rewrite ?filter_filter;
      first [ apply filter_ext | rewrite <- (filter_all st) at 1; apply filter_ext ];
      intros p; simpl; rewrite ?andb_true_r; try reflexivity;
      rewrite andb_assoc; reflexivity. }
  now rewrite H.
Qed.

(** C5, as the code has it. For every catalog and every combination of
    filters, [get_products] answers 200 with exactly the products that
    satisfy, conjunctively, the predicates of the filters that count
    (category equal up to case, [price >= min_price], [price <= max_price]),
    in the catalog's order, and their number; an absent filter is no
    predicate, and a category filter that is the empty string counts as
    absent.  With no filter the whole catalog is returned in order.  The
    catalog itself is left as it was. *)
Theorem get_products_conjunctive (lower : string -> string) (c : option string)
    (mn mx : option float) (now : string) (st : list Product) :
  get_products lower c mn mx now st =
    ((Listing "product-service" (listProducts lower (effective c) mn mx st)
        (List.length (listProducts lower (effective c) mn mx st)) now, 200), st) /\
  (forall p, In p (listed (fst (get_products lower c mn mx now st))) <->
             In p st /\ satisfies lower (effective c) mn mx p = true) /\
  (c <> Some "" ->
   listed (fst (get_products lower c mn mx now st)) = listProducts lower c mn mx st) /\
  listed (fst (get_products lower None None None now st)) = st.
Proof.
  rewrite !get_products_listing. unfold listed. simpl.
  split; [reflexivity|]. split; [|split].
  - intros p. unfold listProducts. apply filter_In.
  - intros Hc. destruct c as [[|a c]|]; [congruence| |]; reflexivity.
  - unfold listProducts, satisfies. simpl. apply filter_all.
Qed.

Lemma get_products_conjunctive_witness :
  listed (fst (get_products lower_ascii (Some "electronics") None (Some 700%float)
                 "2024-02-01T00:00:00" products))
  = listProducts lower_ascii (Some "electronics") None (Some 700%float) products.
Proof.
  apply (proj1 (proj2 (proj2
           (get_products_conjunctive lower_ascii (Some "electronics") None
              (Some 700%float) "2024-02-01T00:00:00" products)))).
  discriminate.
Defined.

(** The specification's scenario: electronics at no more than 700 are the
    phone and the headphones. *)
Example electronics_up_to_700 :
  map id (listed (fst (get_products lower_ascii (Some "electronics") None
                         (Some 700%float) "2024-02-01T00:00:00" products)))
  = ["2"; "4"].
Proof. vm_compute. reflexivity. Qed.

(** C5 fails as stated: with the category filter supplied as the empty
    string, the seeded catalog is returned whole, while none of its
    products has the category "". *)
Lemma get_products_empty_category_not_a_predicate :
  listed (fst (get_products lower_ascii (Some "") None None "2024-02-01T00:00:00"
                 products)) = products /\
  listProducts lower_ascii (Some "") None None products = [] /\
  listed (fst (get_products lower_ascii (Some "") None None "2024-02-01T00:00:00"
                 products))
  <> listProducts lower_ascii (Some "") None None products.
Proof.
  split; [reflexivity|]. split; [reflexivity|].
  intros H. vm_compute in H. discriminate H.
Qed.

(** *** Prices *)







(** *** Update and delete *)

(** The product that [next] finds is merged with the body, where it
    stands. *)
Lemma update_product_found (product_id now : string) (data : fields)
    (st : list Product) (p : Product) (x : float) :
  next (fun q => (id q =? product_id)%string) st = Some p ->
  no_data data = false ->
  new_price data p = Some x ->
  update_product product_id now data st =
    ((Single "product-service" (merge data x now p), 200),
     mutate_first (fun q => (id q =? product_id)%string) (merge data x now) st).
Proof.
  intros Hn Hd Hx. unfold update_product. now rewrite Hn, Hd, Hx.
Qed.

(** C8, as the code has it. For a product [p] of a catalog with distinct
    ids and a body that is
    not empty and whose price, if it has one, is a number [float] accepts,
    [update_product] answers 200 with the merged record [p']: each of name,
    price, category and stock is the body's value where the body has one
    (the price as [float] returns it) and the value of [p] where it has
    none, [updated_at] is the time of the call, [id] and [created_at] are
    those of [p]; [p'] stands in the catalog where [p] stood and every
    other record is unchanged. *)
Theorem update_product_merges (st : list Product) (p : Product) (data : fields)
    (now : string) :
  In p st -> NoDup (map id st) -> no_data data = false ->
  (forall v, f_price data = Some v -> py_float v <> None) ->
  exists p',
    update_product (id p) now data st =
      ((Single "product-service" p', 200),
       map (fun q => if (id q =? id p)%string then p' else q) st) /\
    (forall n, f_name data = Some n -> name p' = n) /\
    (f_name data = None -> name p' = name p) /\
    (forall v, f_price data = Some v -> py_float v = Some (price p')) /\
    (f_price data = None -> price p' = price p) /\
    (forall c, f_category data = Some c -> category p' = c) /\
    (f_category data = None -> category p' = category p) /\
    (forall k, f_stock data = Some k -> stock p' = k) /\
    (f_stock data = None -> stock p' = stock p) /\
    updated_at p' = Some now /\ id p' = id p /\ created_at p' = created_at p.
Proof.
  intros Hin Hnd Hd Hv.
  assert (Hx : exists x, new_price data p = Some x).
  { unfold new_price. destruct (f_price data) as [v|]; [|eauto].
    specialize (Hv v eq_refl). destruct (py_float v); [eauto | congruence]. }
  destruct Hx as [x Hx]. exists (merge data x now p). split.
  - rewrite (update_product_found (id p) now data st p x
               (next_NoDup id st p Hnd Hin) Hd Hx).
    f_equal. now apply mutate_first_at.
  - unfold new_price in Hx. simpl.
    destruct (f_name data), (f_price data), (f_category data), (f_stock data);
      simpl; repeat split; try congruence; try (injection Hx as <-; congruence).
Qed.

Lemma update_product_merges_witness :
  exists p',
    update_product (id laptop) "2024-02-02T00:00:00" discount products =
      ((Single "product-service" p', 200),
       map (fun q => if (id q =? id laptop)%string then p' else q) products) /\
    (forall n, f_name discount = Some n -> name p' = n) /\
    (f_name discount = None -> name p' = name laptop) /\
    (forall v, f_price discount = Some v -> py_float v = Some (price p')) /\
    (f_price discount = None -> price p' = price laptop) /\
    (forall c, f_category discount = Some c -> category p' = c) /\
    (f_category discount = None -> category p' = category laptop) /\
    (forall k, f_stock discount = Some k -> stock p' = k) /\
    (f_stock discount = None -> stock p' = stock laptop) /\
    updated_at p' = Some "2024-02-02T00:00:00" /\ id p' = id laptop /\
    created_at p' = created_at laptop.
Proof.
  apply (update_product_merges products laptop discount "2024-02-02T00:00:00").
  - left. reflexivity.
  - vm_compute. repeat constructor; simpl; intuition discriminate.
  - reflexivity.
  - intros v [= <-]. vm_compute. discriminate.
Defined.

(** What the witness's call leaves in the catalog. *)
Example laptop_discounted :
  map (fun q => (id q, price q, stock q, updated_at q))
      (snd (update_product "1" "2024-02-02T00:00:00" discount products))
  = [ ("1", 900%float, 49, Some "2024-02-02T00:00:00");
      ("2", 699.99%float, 100, None);
      ("3", 19.99%float, 200, None);
      ("4", 149.99%float, 75, None) ].
Proof. vm_compute. reflexivity. Qed.

(** C8 fails as stated: the laptop is in the seeded catalog and the body
    is not empty, but its price, the int 2^1024, is one [float] refuses;
    the call is answered 500, not with a merged record, and the catalog,
    the laptop's price and [updated_at] included, is left as it was. *)
Lemma update_product_price_too_large :
  In laptop products /\ no_data overpriced = false /\
  update_product (id laptop) "2024-02-02T00:00:00" overpriced products
  = ((Error "Internal server error", 500), products) /\
  ~ (exists p',
       fst (update_product (id laptop) "2024-02-02T00:00:00" overpriced products)
       = (Single "product-service" p', 200)).
Proof.
  split; [left; reflexivity|]. split; [reflexivity|].
  assert (H : update_product (id laptop) "2024-02-02T00:00:00" overpriced products
              = ((Error "Internal server error", 500), products))
    by (vm_compute; reflexivity).
  split; [exact H|]. rewrite H. intros (p' & Hp). discriminate Hp.
Qed.

(** A price that [float] refuses is answered 500 and nothing is written. *)
Example update_product_overflow :
  update_product "1" "2024-02-02T00:00:00" overpriced products
  = (internal_error, products).
Proof. vm_compute. reflexivity. Qed.

(** C9. Whatever the id and the catalog, [get_product] after
    [delete_product] answers 404; [delete_product] answers 204 the first
    time and the second, and the second call leaves the catalog the first
    one left. *)
Theorem delete_product_idempotent (product_id : string) (st : list Product) :
  NotFound (fst (get_product product_id (snd (delete_product product_id st)))) /\
  fst (delete_product product_id st) = (Empty, 204) /\
  fst (delete_product product_id (snd (delete_product product_id st))) = (Empty, 204) /\
  snd (delete_product product_id (snd (delete_product product_id st)))
  = snd (delete_product product_id st).
Proof.
  split; [|split; [reflexivity|split; [reflexivity|]]].
  - unfold get_product, delete_product. simpl.
    now rewrite (next_after_filter_out (fun p => (id p =? product_id)%string) st).
  - unfold delete_product. simpl. apply filter_twice.
Qed.

End ProductFacts.

(** ** Empty filter values, in both services *)

Module FilterFacts.

Import Py PyFacts.

(** C10. A filter given as the empty string is no filter.  In the product
    service a category "" changes nothing in what [get_products] answers
    for the other filters, and alone it returns the whole catalog; in the
    order service a [user_id] "" or a [status] "" changes nothing in what
    [get_orders] answers for the other filter, and with no other filter it
    returns the whole ledger. *)
Theorem empty_filter_is_absent :
  (forall lower mn mx now st,
     ProductSvc.get_products lower (Some "") mn mx now st
     = ProductSvc.get_products lower None mn mx now st) /\
  (forall lower now st,
     ProductSvc.get_products lower (Some "") None None now st
     = ((ProductSvc.Listing "product-service" st (List.length st) now, 200), st)) /\
  (forall s now st,
     OrderSvc.get_orders (Some "") s now st = OrderSvc.get_orders None s now st) /\
  (forall u now st,
     OrderSvc.get_orders u (Some "") now st = OrderSvc.get_orders u None now st) /\
  (forall u s now st,
     (u = Some "" \/ u = None) -> (s = Some "" \/ s = None) ->
     OrderSvc.get_orders u s now st
     = (OrderSvc.Ok 200 {| OrderSvc.l_service := "order-service";
                           OrderSvc.l_data := st;
                           OrderSvc.l_count := List.length st;
                           OrderSvc.l_timestamp := now |}, st)).
Proof.
  split; [|split; [|split; [|split]]]; try reflexivity.
  intros u s now st [->| ->] [->| ->]; reflexivity.
Qed.

Lemma empty_filter_is_absent_witness :
  OrderSvc.get_orders (Some "") None "2024-02-01T00:00:00" OrderSvc.orders
  = (OrderSvc.Ok 200 {| OrderSvc.l_service := "order-service";
                        OrderSvc.l_data := OrderSvc.orders;
                        OrderSvc.l_count := 2;
                        OrderSvc.l_timestamp := "2024-02-01T00:00:00" |},
     OrderSvc.orders).
Proof.
  apply (proj2 (proj2 (proj2 (proj2 empty_filter_is_absent)))); [left|right];
    reflexivity.
Defined.

End FilterFacts.

(** * The rest of the handlers *)

(** ** More on lists and floats *)

Module PyMore.

Import Py PyFacts.

Lemma next_none_iff {A : Type} (p : A -> bool) (l : list A) :
  next p l = None <-> forall x, In x l -> p x = false.
Proof.
  unfold next. split; [apply find_none|].
  induction l as [|a l IH]; simpl; [reflexivity|].
  intros H. rewrite (H a (or_introl eq_refl)). apply IH. auto.
Qed.

(** Behind a list that has no match, the appended element is the one
    found, if it matches. *)
Lemma next_app_last {A : Type} (p : A -> bool) (l : list A) (x : A) :
  next p l = None -> p x = true -> next p (l ++ [x]) = Some x.
Proof.
  unfold next. induction l as [|a l IH]; simpl; intros Hn Hx.
  - now rewrite Hx.
  - destruct (p a); [discriminate | now apply IH].
Qed.

(** A match of the list is still found after an element is appended. *)
Lemma next_app_old {A : Type} (p : A -> bool) (l : list A) (x y : A) :
  next p l = Some y -> next p (l ++ [x]) = Some y.
Proof.
  unfold next. induction l as [|a l IH]; simpl; [discriminate|].
  destruct (p a); [auto | apply IH].
Qed.

(** When [f] keeps the key, the mutated element is the one found next. *)
Lemma next_mutate_first {A : Type} (p : A -> bool) (f : A -> A) (l : list A) (x : A) :
  (forall y, p (f y) = p y) ->
  next p l = Some x -> next p (mutate_first p f l) = Some (f x).
Proof.
  intros Hf. unfold next. induction l as [|a l IH]; simpl; [discriminate|].
  destruct (p a) eqn:Ha; simpl.
  - intros [= ->]. now rewrite Hf, Ha.
  - rewrite Ha. exact IH.
Qed.

(** Two mutations of the first match are one, when the first keeps the
    element a match. *)
Lemma mutate_first_twice {A : Type} (p : A -> bool) (f g : A -> A) (l : list A) :
  (forall y, p (f y) = p y) ->
  mutate_first p g (mutate_first p f l) = mutate_first p (fun y => g (f y)) l.
Proof.
  intros Hf. induction l as [|a l IH]; simpl; [reflexivity|].
  destruct (p a) eqn:Ha; simpl.
  - now rewrite Hf, Ha.
  - now rewrite Ha, IH.
Qed.

Lemma mutate_first_ext {A : Type} (p : A -> bool) (f g : A -> A) (l : list A) :
  (forall y, f y = g y) -> mutate_first p f l = mutate_first p g l.
Proof.
  intros H. induction l as [|a l IH]; simpl; [reflexivity|].
  destruct (p a); [now rewrite H | now rewrite IH].
Qed.

Lemma filter_keeps_all {A : Type} (p : A -> bool) (l : list A) :
  (forall x, In x l -> p x = true) -> filter p l = l.
Proof.
  induction l as [|a l IH]; simpl; [reflexivity|].
  intros H. rewrite (H a (or_introl eq_refl)). f_equal. apply IH. auto.
Qed.

Lemma NoDup_map_filter {A : Type} (key : A -> string) (p : A -> bool) (l : list A) :
  NoDup (map key l) -> NoDup (map key (filter p l)).
Proof.
  induction l as [|a l IH]; simpl; [auto|].
  intros Hnd. inversion Hnd as [|? ? Hnotin Hnd']; subst.
  destruct (p a); simpl; [|auto]. constructor; [|auto].
  intros Hin. apply Hnotin. apply in_map_iff in Hin.
  destruct Hin as (x & Hk & Hx). apply filter_In in Hx.
  apply in_map_iff. exists x. tauto.
Qed.

Lemma NoDup_map_app_last {A : Type} (key : A -> string) (l : list A) (x : A) :
  NoDup (map key l) ->
  existsb (fun y => (key y =? key x)%string) l = false ->
  NoDup (map key (l ++ [x])).
Proof.
  intros Hnd Hx. rewrite map_app. simpl.
  apply NoDup_app; [exact Hnd | repeat constructor; intros [] |].
  intros k Hk [<-|[]]. apply in_map_iff in Hk. destruct Hk as (y & Hy & Hin).
  assert (H : existsb (fun y => (key y =? key x)%string) l = true).
  { apply existsb_exists. exists y. split; [exact Hin | now apply String.eqb_eq]. }
  congruence.
Qed.

Lemma existsb_false_next {A : Type} (p : A -> bool) (l : list A) :
  existsb p l = false <-> next p l = None.
Proof.
  unfold next. induction l as [|a l IH]; simpl; [tauto|].
  destruct (p a); simpl; [split; discriminate | exact IH].
Qed.

Lemma next_filter_other {A : Type} (p q : A -> bool) (l : list A) :
  (forall x, p x = true -> q x = true) -> next p (filter q l) = next p l.
Proof.
  intros H. unfold next. induction l as [|a l IH]; simpl; [reflexivity|].
  destruct (p a) eqn:Hp.
  - rewrite (H a Hp). simpl. now rewrite Hp.
  - destruct (q a); simpl; [now rewrite Hp | exact IH].
Qed.

Lemma mutate_first_In_new {A : Type} (p : A -> bool) (f : A -> A) (l : list A) (x : A) :
  next p l = Some x -> In (f x) (mutate_first p f l).
Proof.
  unfold next. induction l as [|a l IH]; simpl; [discriminate|].
  destruct (p a).
  - intros [= ->]. now left.
  - intros H. right. now apply IH.
Qed.

Lemma filter_none {A : Type} (p : A -> bool) (l : list A) :
  (forall x, p x = false) -> filter p l = [].
Proof.
  intros H. induction l as [|a l IH]; simpl; [reflexivity|]. now rewrite H.
Qed.

(** A NaN is below nothing and above nothing. *)
Lemma nan_leb (x : float) : (nan <=? x)%float = false /\ (x <=? nan)%float = false.
Proof.
  rewrite !leb_spec. change (Prim2SF nan) with S754_nan. unfold SFleb.
  split; [reflexivity|]. destruct (Prim2SF x); reflexivity.
Qed.

End PyMore.

(** ** More on the order ledger *)

Module OrderMore.

Import Py PyFacts PyMore OrderSvc.

Lemma truthy_false (x : string) : truthy x = false <-> x = "".
Proof.
  unfold truthy. destruct (x =? "")%string eqn:E; simpl.
  - apply String.eqb_eq in E. tauto.
  - apply String.eqb_neq in E. split; [discriminate | tauto].
Qed.

(** What a query argument asks of a field: nothing when it is absent or
    empty, equality otherwise. *)
Lemma asks_iff (q : option string) (v : string) :
  match q with
  | Some x => if truthy x then (v =? x)%string else true
  | None => true
  end = true
  <-> (forall x, q = Some x -> x <> "" -> v = x).
Proof.
  destruct q as [x|]; [|split; [discriminate | reflexivity]].
  destruct (truthy x) eqn:T.
  - split.
    + intros E y [= <-] _. now apply String.eqb_eq.
    + intros H. apply String.eqb_eq. apply H; [reflexivity|].
      intros ->. discriminate T.
  - apply truthy_false in T. split; [|reflexivity].
    intros _ y [= <-] Hy. contradiction.
Qed.

(** X1. [get_orders] answers 200 with the orders of the ledger, in the
    ledger's order, that have the given [user_id] and the given [status],
    where an argument that is absent or empty asks nothing; [count] is
    their number and the ledger is left as it was. *)
Theorem get_orders_lists_matching (u s : option string) (now : string)
    (st : list Order) :
  exists keep,
    get_orders u s now st =
      (Ok 200 {| l_service := "order-service";
                 l_data := filter keep st;
                 l_count := List.length (filter keep st);
                 l_timestamp := now |}, st) /\
    forall o, keep o = true <->
              (forall u', u = Some u' -> u' <> "" -> user_id o = u') /\
              (forall s', s = Some s' -> s' <> "" -> status o = s').
Proof.
  exists (fun o =>
            match u with
            | Some x => if truthy x then (user_id o =? x)%string else true
            | None => true
            end
            && match s with
               | Some x => if truthy x then (status o =? x)%string else true
               | None => true
               end).
  split.
  - unfold get_orders. cbv zeta.
    match goal with
    | |- (Ok _ {| l_service := _; l_data := ?l; l_count := _; l_timestamp := _ |}, _)
         = (Ok _ {| l_service := _; l_data := ?r; l_count := _; l_timestamp := _ |}, _) =>
        assert (H : l = r)
    end.
    { destruct u as [x|]; [destruct (truthy x)|]; (destruct s as [y|]; [destruct (truthy y)|]);
        rewrite ?filter_filter;
        first [ apply filter_ext | rewrite <- (filter_all st) at 1; apply filter_ext ];
        intros o; simpl; rewrite ?andb_true_r; reflexivity. }
    now rewrite H.
  - intros o. rewrite andb_true_iff, !asks_iff. reflexivity.
Qed.

Lemma get_order_state (i : string) (st : list Order) : snd (get_order i st) = st.
Proof. unfold get_order. now destruct (next _ st). Qed.

Lemma id_eqb_none (i : string) (st : list Order) :
  next (fun o => (id o =? i)%string) st = None <-> forall o, In o st -> id o <> i.
Proof.
  rewrite next_none_iff. split; intros H o Ho.
  - apply String.eqb_neq. now apply H.
  - apply String.eqb_neq. now apply H.
Qed.

(** X2. [get_order] answers 404 exactly when no order of the ledger has the
    id; when one has, it answers 200 with an order of the ledger that has
    the id; wherever it answers with an order, that order is in the ledger
    under that id.  The ledger is left as it was. *)
Theorem get_order_found_or_404 (i : string) (st : list Order) :
  (NotFound (fst (get_order i st)) <-> forall o, In o st -> id o <> i) /\
  ((exists o, In o st /\ id o = i) ->
   exists o', fst (get_order i st)
              = Ok 200 {| s_service := "order-service"; s_data := o' |}) /\
  (forall code b, fst (get_order i st) = Ok code b ->
                  code = 200 /\ In (s_data b) st /\ id (s_data b) = i) /\
  snd (get_order i st) = st.
Proof.
  split; [|split; [|split]]; [| | |apply get_order_state].
  - rewrite <- id_eqb_none. unfold get_order.
    destruct (next _ st) as [o|] eqn:Hn; simpl.
    + split; [|discriminate]. intros (e & He & _). discriminate He.
    + split; [reflexivity|]. intros _. eexists. split; reflexivity.
  - intros (o & Ho & Hi). unfold get_order.
    destruct (next _ st) as [o'|] eqn:Hn; simpl; [eauto|].
    now elim (proj1 (id_eqb_none i st) Hn o Ho).
  - intros code b. unfold get_order.
    destruct (next _ st) as [o'|] eqn:Hn; simpl; [|discriminate].
    intros [= <- <-]. simpl. apply next_some in Hn. destruct Hn as [Hin He].
    apply String.eqb_eq in He. auto.
Qed.

Lemma get_order_found_or_404_witness :
  exists o', fst (get_order "order-2" orders)
             = Ok 200 {| s_service := "order-service"; s_data := o' |}.
Proof.
  apply (proj1 (proj2 (get_order_found_or_404 "order-2" orders))).
  exists order_2. split; [right; left; reflexivity | reflexivity].
Defined.

(** X3. An order that [create_order] answered with is the one [get_order]
    returns for its id afterwards, when the generated id was not in the
    ledger; and every lookup that found an order before the creation finds
    the same order after it. *)
Theorem create_order_then_get (uuid now : string) (d : OrderCreate)
    (st : list Order) (b : single) :
  fresh (CreateOrder uuid now d) st = true ->
  fst (create_order uuid now d st) = Ok 201 b ->
  get_order (id (s_data b)) (snd (create_order uuid now d st))
  = (Ok 200 b, snd (create_order uuid now d st)) /\
  (forall i b0, fst (get_order i st) = Ok 200 b0 ->
                fst (get_order i (snd (create_order uuid now d st))) = Ok 200 b0).
Proof.
  unfold fresh. rewrite negb_true_iff, existsb_false_next. intros Hf.
  unfold create_order. destruct (negb (body_ok d)); simpl; [discriminate|].
  destruct (order_total (oc_items d)) as [total|]; simpl; [|discriminate].
  intros [= <-]. simpl. split.
  - unfold get_order.
    match goal with
    | |- context [next ?p (st ++ [?x])%list] =>
        rewrite (next_app_last p st x Hf (String.eqb_refl ("order-" ++ uuid)))
    end.
    reflexivity.
  - intros i b0. unfold get_order.
    destruct (next (fun o => (id o =? i)%string) st) as [o|] eqn:Hn; simpl;
      [|discriminate].
    intros [= <-]. now rewrite (next_app_old _ st _ o Hn).
Qed.

Lemma create_order_then_get_witness :
  exists b,
    fst (create_order "u1" "2024-01-31T00:00:00" example_body orders) = Ok 201 b /\
    get_order (id (s_data b))
              (snd (create_order "u1" "2024-01-31T00:00:00" example_body orders))
    = (Ok 200 b, snd (create_order "u1" "2024-01-31T00:00:00" example_body orders)).
Proof.
  eexists. split; [reflexivity|].
  apply (create_order_then_get "u1" "2024-01-31T00:00:00" example_body orders);
    reflexivity.
Defined.

Lemma body_ok_false_iff (d : OrderCreate) :
  body_ok d = false <->
  exists it, In it (oc_items d) /\
             (quantity it <= 0 \/ (0 <? price it)%float = false).
Proof.
  unfold body_ok. induction (oc_items d) as [|a l IH]; simpl.
  - split; [discriminate | intros (it & [] & _)].
  - rewrite andb_false_iff, IH. unfold item_ok at 1. rewrite andb_false_iff.
    rewrite Z.ltb_ge. split.
    + intros [H|(it & Hin & H)]; [exists a; auto | exists it; auto].
    + intros (it & [<-|Hin] & H); [left; exact H | right; exists it; auto].
Qed.

(** X4. [create_order] writes to the ledger exactly when every item of the
    body has a quantity above 0 and a price above 0 and no product
    [quantity * price] raises: it then appends one order, which holds the
    body's user, items and address, the generated id, the status "pending",
    the time of the call as [created_at] and no [updated_at].  When some
    item has a quantity that is not above 0 or a price that is not above 0
    (a NaN is not), or a product raises, the ledger is left as it was. *)
Theorem create_order_writes_iff (uuid now : string) (d : OrderCreate)
    (st : list Order) :
  ((exists it, In it (oc_items d) /\
               (quantity it <= 0 \/ (0 <? price it)%float = false)) \/
   order_total (oc_items d) = None ->
   snd (create_order uuid now d st) = st) /\
  ((forall it, In it (oc_items d) ->
               0 < quantity it /\ (0 <? price it)%float = true) ->
   order_total (oc_items d) <> None ->
   exists o,
     snd (create_order uuid now d st) = (st ++ [o])%list /\
     id o = "order-" ++ uuid /\ user_id o = oc_user_id d /\
     items o = oc_items d /\ status o = "pending" /\
     shipping_address o = oc_shipping_address d /\
     created_at o = now /\ updated_at o = None).
Proof.
  split.
  - rewrite <- body_ok_false_iff. unfold create_order.
    intros [H|H]; [now rewrite H|].
    destruct (negb (body_ok d)); [reflexivity | now rewrite H].
  - intros Hall Htot.
    assert (Hok : body_ok d = true).
    { destruct (body_ok d) eqn:E; [reflexivity|].
      apply body_ok_false_iff in E. destruct E as (it & Hin & Hbad).
      destruct (Hall it Hin) as [Hq Hp]. destruct Hbad as [Hbad|Hbad];
        [lia | congruence]. }
    unfold create_order. rewrite Hok. simpl.
    destruct (order_total (oc_items d)) as [total|]; [|congruence].
    simpl. eexists. split; [reflexivity|]. simpl. repeat split.
Qed.

Lemma create_order_writes_iff_witness :
  snd (create_order "u" "2024-02-01T00:00:00" nan_price_body orders) = orders.
Proof.
  apply (proj1 (create_order_writes_iff "u" "2024-02-01T00:00:00" nan_price_body
                  orders)).
  left. exists {| product_id := "3"; quantity := 1; price := nan |}.
  split; [left; reflexivity | right; reflexivity].
Defined.

(** X5. [update_order_status] answers 404 exactly when the new status is a
    valid one and no order of the ledger has the id; the ledger is then
    left as it was, as after every answer that is an error. *)
Theorem update_order_status_404_iff (i s now : string) (st : list Order) :
  (NotFound (fst (update_order_status i s now st)) <->
   In s valid_statuses /\ forall o, In o st -> id o <> i) /\
  (forall e, fst (update_order_status i s now st) = Raise e ->
             snd (update_order_status i s now st) = st).
Proof.
  rewrite <- id_eqb_none, <- OrderFacts.is_valid_status_In.
  unfold update_order_status. destruct (is_valid_status s); simpl.
  - destruct (next _ st) as [o|]; simpl; split.
    + split; [intros (e & He & _); discriminate He | intros [_ H]; discriminate H].
    + intros e. discriminate.
    + split; [auto|]. intros _. eexists. split; reflexivity.
    + reflexivity.
  - split; [|reflexivity]. split.
    + intros (e & [= <-] & Hc). discriminate Hc.
    + intros [H _]. discriminate H.
Qed.

Lemma set_status_keeps_id (s now i : string) (o : Order) :
  (id (set_status s now o) =? i)%string = (id o =? i)%string.
Proof. reflexivity. Qed.

(** X6. After [update_order_status] answered 200 with an order, [get_order]
    returns that order for the id: it has the new status and the time of the
    call as [updated_at]. *)
Theorem update_order_status_then_get (i s now : string) (st : list Order)
    (b : single) :
  fst (update_order_status i s now st) = Ok 200 b ->
  get_order i (snd (update_order_status i s now st))
  = (Ok 200 b, snd (update_order_status i s now st)) /\
  status (s_data b) = s /\ updated_at (s_data b) = Some now.
Proof.
  unfold update_order_status. destruct (negb (is_valid_status s)); simpl; [discriminate|].
  destruct (next _ st) as [o|] eqn:Hn; simpl; [|discriminate].
  intros [= <-]. simpl. split; [|auto].
  unfold get_order.
  rewrite (next_mutate_first _ (set_status s now) st o (set_status_keeps_id s now i) Hn).
  reflexivity.
Qed.

Lemma update_order_status_then_get_witness :
  exists b,
    fst (update_order_status "order-1" "delivered" "2024-02-01T00:00:00" orders)
    = Ok 200 b /\
    get_order "order-1"
      (snd (update_order_status "order-1" "delivered" "2024-02-01T00:00:00" orders))
    = (Ok 200 b,
       snd (update_order_status "order-1" "delivered" "2024-02-01T00:00:00" orders)) /\
    status (s_data b) = "delivered" /\
    updated_at (s_data b) = Some "2024-02-01T00:00:00".
Proof.
  eexists. split; [reflexivity|].
  apply (update_order_status_then_get "order-1" "delivered" "2024-02-01T00:00:00" orders).
  reflexivity.
Defined.

(** X7. Of two status updates of the same id, the second decides: when its
    status is valid, the ledger after both is the ledger after the second
    alone. *)
Theorem update_order_status_last_wins (i s1 now1 s2 now2 : string)
    (st : list Order) :
  In s2 valid_statuses ->
  snd (update_order_status i s2 now2 (snd (update_order_status i s1 now1 st)))
  = snd (update_order_status i s2 now2 st).
Proof.
  intros H2. apply OrderFacts.is_valid_status_In in H2.
  unfold update_order_status at 2. destruct (negb (is_valid_status s1)); simpl;
    [reflexivity|].
  destruct (next _ st) as [o|] eqn:Hn; simpl; [|reflexivity].
  unfold update_order_status. rewrite H2. simpl.
  rewrite (next_mutate_first _ (set_status s1 now1) st o
             (set_status_keeps_id s1 now1 i) Hn), Hn. simpl.
  rewrite (mutate_first_twice _ (set_status s1 now1) (set_status s2 now2) st
             (set_status_keeps_id s1 now1 i)).
  apply mutate_first_ext. reflexivity.
Qed.

Lemma update_order_status_last_wins_witness :
  snd (update_order_status "order-2" "shipped" "2024-02-02T00:00:00"
         (snd (update_order_status "order-2" "cancelled" "2024-02-01T00:00:00" orders)))
  = snd (update_order_status "order-2" "shipped" "2024-02-02T00:00:00" orders).
Proof.
  apply update_order_status_last_wins. simpl. tauto.
Defined.

(** X8. [cancel_order] always answers 204.  It removes every order that has
    the id and keeps the others, in their order: the ledger it leaves is the
    ledger it met with the orders of that id struck out; afterwards [get_order]
    answers 404 for the id and what it answered before for any other id;
    cancelling again changes nothing, and cancelling an id that no order has
    leaves the ledger as it was. *)
Theorem cancel_order_removes (i : string) (st : list Order) :
  fst (cancel_order i st) = Ok 204 tt /\
  (forall o, In o (snd (cancel_order i st)) <-> In o st /\ id o <> i) /\
  (forall l1 l2 o, st = (l1 ++ o :: l2)%list ->
     snd (cancel_order i st)
     = (snd (cancel_order i l1)
        ++ (if (id o =? i)%string then [] else [o])
        ++ snd (cancel_order i l2))%list) /\
  snd (cancel_order i []) = [] /\
  NotFound (fst (get_order i (snd (cancel_order i st)))) /\
  (forall j, j <> i ->
     fst (get_order j (snd (cancel_order i st))) = fst (get_order j st)) /\
  snd (cancel_order i (snd (cancel_order i st))) = snd (cancel_order i st) /\
  ((forall o, In o st -> id o <> i) -> snd (cancel_order i st) = st).
Proof.
  unfold cancel_order. simpl. split; [reflexivity|].
  split; [|split; [|split; [reflexivity|split; [|split; [|split]]]]].
  - intros o. rewrite filter_In, negb_true_iff, String.eqb_neq. reflexivity.
  - intros l1 l2 o ->. rewrite filter_app. simpl.
    now destruct (id o =? i)%string.
  - unfold get_order.
    rewrite (next_after_filter_out (fun o => (id o =? i)%string) st). simpl.
    eexists. split; reflexivity.
  - intros j Hj. unfold get_order.
    rewrite (next_filter_other (fun o => (id o =? j)%string)
               (fun o => negb (id o =? i)%string) st).
    + now destruct (next _ st).
    + intros o Ho. apply String.eqb_eq in Ho. subst j.
      apply negb_true_iff, String.eqb_neq. exact Hj.
  - apply filter_twice.
  - intros H. apply filter_keeps_all. intros o Ho.
    apply negb_true_iff, String.eqb_neq. now apply H.
Qed.

Lemma cancel_order_removes_witness :
  fst (get_order "order-1" (snd (cancel_order "order-2" orders)))
  = fst (get_order "order-1" orders).
Proof.
  apply (proj1 (proj2 (proj2 (proj2 (proj2 (proj2
           (cancel_order_removes "order-2" orders))))))).
  discriminate.
Defined.

Lemma step_keeps_ids_distinct (r : request) (st : list Order) :
  NoDup (map id st) -> fresh r st = true -> NoDup (map id (step r st)).
Proof.
  intros Hnd Hf. destruct r as [u s now|i|uuid now d|i s now|i]; simpl.
  - exact Hnd.
  - now rewrite get_order_state.
  - unfold create_order. destruct (negb (body_ok d)); simpl; [exact Hnd|].
    destruct (order_total (oc_items d)); simpl; [|exact Hnd].
    apply NoDup_map_app_last; [exact Hnd|].
    simpl in Hf. apply negb_true_iff in Hf. exact Hf.
  - unfold update_order_status. destruct (negb (is_valid_status s)); simpl; [exact Hnd|].
    destruct (next _ st); simpl; [|exact Hnd].
    now rewrite (mutate_first_map _ (set_status s now) id st (fun x => eq_refl)).
  - now apply NoDup_map_filter.
Qed.

(** X9. Order ids stay distinct: after any sequence of requests served from
    the seeded ledger in which no create request generates an id that the
    ledger it meets already holds, no two orders of the ledger share an
    id. *)
Theorem order_ids_stay_distinct (rs : list request) :
  all_fresh rs orders = true -> NoDup (map id (run rs orders)).
Proof.
  assert (Hseed : NoDup (map id orders)).
  { simpl. repeat constructor; simpl; intuition discriminate. }
  unfold run. revert Hseed. generalize orders as st.
  induction rs as [|r rs IH]; intros st Hnd Hf; simpl; [exact Hnd|].
  simpl in Hf. apply andb_prop in Hf. destruct Hf as [Hr Hrs].
  apply IH; [|exact Hrs]. now apply step_keeps_ids_distinct.
Qed.

Lemma order_ids_stay_distinct_witness :
  NoDup (map id (run [ CreateOrder "u1" "2024-01-31T00:00:00" example_body;
                       UpdateOrderStatus "order-u1" "shipped" "2024-02-01T00:00:00";
                       CancelOrder "order-1";
                       CreateOrder "u2" "2024-02-02T00:00:00" empty_body ] orders)).
Proof.
  apply order_ids_stay_distinct. vm_compute. reflexivity.
Defined.

Lemma valid_status_truthy (s : string) : In s valid_statuses -> truthy s = true.
Proof.
  simpl. intros H.
  repeat (destruct H as [<-|H]; [reflexivity|]). destruct H.
Qed.

(** X10. An order that [update_order_status] answered with is among the
    orders [get_orders] lists for the new status afterwards. *)
Theorem updated_order_is_listed (i s now now' : string) (st : list Order)
    (b : single) :
  fst (update_order_status i s now st) = Ok 200 b ->
  exists l,
    fst (get_orders None (Some s) now' (snd (update_order_status i s now st)))
    = Ok 200 l /\ In (s_data b) (l_data l).
Proof.
  unfold update_order_status. destruct (is_valid_status s) eqn:Hs; simpl; [|discriminate].
  apply OrderFacts.is_valid_status_In, valid_status_truthy in Hs.
  destruct (next _ st) as [o|] eqn:Hn; simpl; [|discriminate].
  intros [= <-]. unfold get_orders. rewrite Hs. simpl.
  eexists. split; [reflexivity|]. simpl.
  apply filter_In. split; [now apply mutate_first_In_new|].
  simpl. apply String.eqb_refl.
Qed.

Lemma updated_order_is_listed_witness :
  exists b,
    fst (update_order_status "order-1" "delivered" "2024-02-01T00:00:00" orders)
    = Ok 200 b /\
    exists l,
      fst (get_orders None (Some "delivered") "2024-02-02T00:00:00"
             (snd (update_order_status "order-1" "delivered" "2024-02-01T00:00:00"
                     orders)))
      = Ok 200 l /\ In (s_data b) (l_data l).
Proof.
  eexists. split; [reflexivity|].
  apply (updated_order_is_listed "order-1" "delivered" "2024-02-01T00:00:00"
           "2024-02-02T00:00:00" orders).
  reflexivity.
Defined.

Lemma create_order_In_checked (uuid now : string) (d : OrderCreate)
    (st : list Order) (o : Order) :
  In o (snd (create_order uuid now d st)) ->
  In o st \/ (items o = oc_items d /\ body_ok d = true).
Proof.
  unfold create_order. destruct (body_ok d); simpl; [|auto].
  destruct (order_total (oc_items d)); simpl; [|auto].
  rewrite in_app_iff. simpl. intros [H|[<-|[]]]; auto.
Qed.

(** X11. In every ledger the service can reach from its seed, every item of
    every order has a quantity above 0 and a price above 0. *)
Theorem reachable_items_positive (st : list Order) (o : Order) :
  reachable st -> In o st -> items_positive o.
Proof.
  intros Hst. revert o. induction Hst as [|r st _ IH]; intros o.
  - intros [<-|[<-|[]]] it; simpl;
      intros H;
      repeat (destruct H as [<-|H]; [simpl; split; [lia | reflexivity]|]);
      destruct H.
  - destruct r as [u s now|i|uuid now d|i s now|i]; simpl.
    + apply IH.
    + rewrite get_order_state. apply IH.
    + intros H. apply create_order_In_checked in H.
      destruct H as [H|[Hi Hok]]; [now apply IH|].
      intros it Hit. rewrite Hi in Hit. unfold body_ok in Hok.
      rewrite forallb_forall in Hok. specialize (Hok it Hit).
      apply andb_prop in Hok. destruct Hok as [Hq Hp].
      apply Z.ltb_lt in Hq. auto.
    + intros H. apply OrderFacts.update_order_status_In in H.
      destruct H as [H|(_ & o0 & H0 & ->)]; [now apply IH|].
      exact (IH o0 H0).
    + intros H. apply filter_In in H. now apply IH.
Qed.

Lemma reachable_items_positive_witness : items_positive order_2_cancelled.
Proof.
  apply (reachable_items_positive cancelled_ledger order_2_cancelled).
  - apply reach_step, reach_seed.
  - right. left. reflexivity.
Defined.

(** X12. In every ledger the service can reach from its seed, the status of
    an order is one of [valid_statuses], or it is the seed's "completed" on
    an order whose status was never updated. *)
Theorem reachable_status (st : list Order) (o : Order) :
  reachable st -> In o st ->
  In (status o) valid_statuses \/ (status o = "completed" /\ updated_at o = None).
Proof.
  intros Hst. revert o. induction Hst as [|r st _ IH]; intros o.
  - intros [<-|[<-|[]]]; simpl; tauto.
  - destruct r as [u s now|i|uuid now d|i s now|i]; simpl.
    + apply IH.
    + rewrite get_order_state. apply IH.
    + intros H. apply OrderFacts.create_order_In in H.
      destruct H as [H|(_ & _ & Hp)]; [now apply IH|].
      left. rewrite Hp. simpl. tauto.
    + intros H. apply OrderFacts.update_order_status_In in H.
      destruct H as [H|(Hs & o0 & _ & ->)]; [now apply IH|].
      left. exact Hs.
    + intros H. apply filter_In in H. now apply IH.
Qed.

Lemma reachable_status_witness :
  In (status order_2_cancelled) valid_statuses \/
  (status order_2_cancelled = "completed" /\ updated_at order_2_cancelled = None).
Proof.
  apply (reachable_status cancelled_ledger order_2_cancelled).
  - apply reach_step, reach_seed.
  - right. left. reflexivity.
Defined.

End OrderMore.

(** ** More on the product catalog *)

Module ProductMore.

Import Py PyFacts PyMore ProductSvc.

Lemma product_id_none (i : string) (st : list Product) :
  next (fun p => (id p =? i)%string) st = None <-> forall p, In p st -> id p <> i.
Proof.
  rewrite next_none_iff. split; intros H p Hp.
  - apply String.eqb_neq. now apply H.
  - apply String.eqb_neq. now apply H.
Qed.

(** X13. [get_product] answers 404 exactly when no product of the catalog
    has the id; when one has, it answers 200 with a product of the catalog
    that has the id.  The catalog is left as it was. *)
Theorem get_product_found_or_404 (i : string) (st : list Product) :
  (NotFound (fst (get_product i st)) <-> forall p, In p st -> id p <> i) /\
  ((exists p, In p st /\ id p = i) ->
   exists p', fst (get_product i st) = (Single "product-service" p', 200) /\
              In p' st /\ id p' = i) /\
  snd (get_product i st) = st.
Proof.
  rewrite <- product_id_none. unfold get_product, NotFound.
  destruct (next _ st) as [p'|] eqn:Hn; simpl.
  - split; [split; discriminate|]. split; [|reflexivity].
    intros _. exists p'. apply next_some in Hn. destruct Hn as [Hin He].
    apply String.eqb_eq in He. auto.
  - split; [tauto|]. split; [|reflexivity].
    intros (p & Hp & Hi). now elim (proj1 (product_id_none i st) Hn p Hp).
Qed.

Lemma get_product_found_or_404_witness :
  exists p', fst (get_product "1" products) = (Single "product-service" p', 200) /\
             In p' products /\ id p' = "1".
Proof.
  apply (proj1 (proj2 (get_product_found_or_404 "1" products))).
  exists laptop. split; [left; reflexivity | reflexivity].
Defined.

(** X14. [create_product] answers 400 exactly when the body lacks [name],
    [price] or [category]; it answers 201 only by appending the product it
    returns, and every other answer leaves the catalog as it was. *)
Theorem create_product_400_iff (uuid now : string) (data : fields)
    (st : list Product) :
  (snd (fst (create_product uuid now data st)) = 400 <->
   f_name data = None \/ f_price data = None \/ f_category data = None) /\
  (snd (fst (create_product uuid now data st)) <> 201 ->
   snd (create_product uuid now data st) = st) /\
  (snd (fst (create_product uuid now data st)) = 201 ->
   exists p, create_product uuid now data st
             = ((Single "product-service" p, 201), (st ++ [p])%list)).
Proof.
  unfold create_product.
  destruct (f_name data), (f_price data) as [v|], (f_category data); simpl;
    try (split; [split; [auto | reflexivity] | split; [reflexivity | discriminate]]).
  destruct (py_float v); simpl.
  - split; [split; [discriminate | intros [H|[H|H]]; discriminate H]|].
    split; [congruence | eauto].
  - split; [split; [discriminate | intros [H|[H|H]]; discriminate H]|].
    split; [reflexivity | discriminate].
Qed.

(** X15. A product that [create_product] answered with is the one
    [get_product] returns for its id afterwards, when the generated id was
    not in the catalog.  Its id is the generated one, its stock is 0 when
    the body has none, [created_at] is the time of the call and
    [updated_at] is not set; lookups that found a product before find the
    same product after. *)
Theorem create_product_then_get (uuid now : string) (data : fields)
    (st : list Product) (p : Product) :
  fresh (CreateProduct uuid now data) st = true ->
  fst (create_product uuid now data st) = (Single "product-service" p, 201) ->
  get_product (id p) (snd (create_product uuid now data st))
  = ((Single "product-service" p, 200), snd (create_product uuid now data st)) /\
  id p = uuid /\ (f_stock data = None -> stock p = 0) /\
  created_at p = Some now /\ updated_at p = None /\
  (forall i q, fst (get_product i st) = (Single "product-service" q, 200) ->
               fst (get_product i (snd (create_product uuid now data st)))
               = (Single "product-service" q, 200)).
Proof.
  unfold fresh. rewrite negb_true_iff, existsb_false_next. intros Hf.
  unfold create_product.
  destruct (f_name data), (f_price data) as [v|], (f_category data); simpl;
    try discriminate.
  destruct (py_float v); simpl; [|discriminate].
  intros [= <-]. simpl. split; [|repeat split].
  - unfold get_product.
    match goal with
    | |- context [next ?f (st ++ [?x])%list] =>
        rewrite (next_app_last f st x Hf (String.eqb_refl uuid))
    end.
    reflexivity.
  - intros ->. reflexivity.
  - intros i q. unfold get_product.
    destruct (next (fun p => (id p =? i)%string) st) as [q'|] eqn:Hn; simpl;
      [|discriminate].
    intros [= <-]. now rewrite (next_app_old _ st _ q' Hn).
Qed.

Lemma create_product_then_get_witness :
  exists p,
    fst (create_product "u1" "2024-02-01T00:00:00" pen products)
    = (Single "product-service" p, 201) /\
    get_product (id p) (snd (create_product "u1" "2024-02-01T00:00:00" pen products))
    = ((Single "product-service" p, 200),
       snd (create_product "u1" "2024-02-01T00:00:00" pen products)).
Proof.
  eexists. split; [reflexivity|].
  apply (create_product_then_get "u1" "2024-02-01T00:00:00" pen products);
    reflexivity.
Defined.

(** X16. [update_product] looks the id up before it looks at the body: it
    answers 404 exactly when no product has the id, whatever the body, and
    400 exactly when a product has the id and the body is empty.  Every
    answer other than 200 leaves the catalog as it was. *)
Theorem update_product_errors (i now : string) (data : fields) (st : list Product) :
  (snd (fst (update_product i now data st)) = 404 <->
   forall p, In p st -> id p <> i) /\
  (snd (fst (update_product i now data st)) = 400 <->
   (exists p, In p st /\ id p = i) /\ no_data data = true) /\
  (snd (fst (update_product i now data st)) <> 200 ->
   snd (update_product i now data st) = st).
Proof.
  rewrite <- product_id_none. unfold update_product.
  destruct (next _ st) as [p|] eqn:Hn; simpl.
  - assert (Hex : exists q, In q st /\ id q = i).
    { exists p. apply next_some in Hn. destruct Hn as [Hin He].
      apply String.eqb_eq in He. auto. }
    destruct (no_data data); simpl.
    + split; [split; discriminate|]. split; [tauto | reflexivity].
    + destruct (new_price data p); simpl.
      * split; [split; discriminate|].
        split; [split; [discriminate | intros [_ H]; discriminate H] | congruence].
      * split; [split; discriminate|].
        split; [split; [discriminate | intros [_ H]; discriminate H] | reflexivity].
  - split; [tauto|]. split; [|reflexivity]. split; [discriminate|].
    intros [(p & Hp & Hi) _]. now elim (proj1 (product_id_none i st) Hn p Hp).
Qed.

Example update_product_unknown_id_empty_body :
  update_product "9" "2024-02-02T00:00:00" no_fields products
  = ((Error "Product not found", 404), products).
Proof. reflexivity. Qed.

Lemma merge_keeps_id (data : fields) (x : float) (now i : string) (p : Product) :
  (id (merge data x now p) =? i)%string = (id p =? i)%string.
Proof. reflexivity. Qed.

(** X17. After [update_product] answered 200 with a product, [get_product]
    returns that product for the id. *)
Theorem update_product_then_get (i now : string) (data : fields)
    (st : list Product) (p : Product) :
  fst (update_product i now data st) = (Single "product-service" p, 200) ->
  get_product i (snd (update_product i now data st))
  = ((Single "product-service" p, 200), snd (update_product i now data st)) /\
  updated_at p = Some now.
Proof.
  unfold update_product. destruct (next _ st) as [q|] eqn:Hn; simpl; [|discriminate].
  destruct (no_data data); simpl; [discriminate|].
  destruct (new_price data q) as [x|]; simpl; [|discriminate].
  intros [= <-]. split; [|reflexivity]. unfold get_product.
  rewrite (next_mutate_first _ (merge data x now) st q (merge_keeps_id data x now i) Hn).
  reflexivity.
Qed.

Lemma update_product_then_get_witness :
  exists p,
    fst (update_product "1" "2024-02-02T00:00:00" discount products)
    = (Single "product-service" p, 200) /\
    get_product "1" (snd (update_product "1" "2024-02-02T00:00:00" discount products))
    = ((Single "product-service" p, 200),
       snd (update_product "1" "2024-02-02T00:00:00" discount products)) /\
    updated_at p = Some "2024-02-02T00:00:00".
Proof.
  eexists. split; [reflexivity|].
  apply (update_product_then_get "1" "2024-02-02T00:00:00" discount products).
  reflexivity.
Defined.

Lemma merge_merge (data : fields) (x : float) (now1 now2 : string) (p : Product) :
  merge data x now2 (merge data x now1 p) = merge data x now2 p.
Proof.
  unfold merge. simpl.
  destruct (f_name data), (f_category data), (f_stock data); reflexivity.
Qed.

Lemma new_price_merge (data : fields) (x : float) (now : string) (p : Product) :
  new_price data p = Some x -> new_price data (merge data x now p) = Some x.
Proof. unfold new_price. destruct (f_price data); [auto | reflexivity]. Qed.

(** X18. Sending the same body to [update_product] twice is sending it
    once: the catalog after both calls is the catalog after the second
    alone. *)
Theorem update_product_repeat (i now1 now2 : string) (data : fields)
    (st : list Product) :
  snd (update_product i now2 data (snd (update_product i now1 data st)))
  = snd (update_product i now2 data st).
Proof.
  unfold update_product at 2.
  destruct (next _ st) as [p|] eqn:Hn; simpl; [|reflexivity].
  destruct (no_data data) eqn:Hd; simpl; [reflexivity|].
  destruct (new_price data p) as [x|] eqn:Hx; simpl; [|reflexivity].
  unfold update_product.
  rewrite (next_mutate_first _ (merge data x now1) st p
             (merge_keeps_id data x now1 i) Hn), Hn, Hd.
  rewrite (new_price_merge data x now1 p Hx), Hx. simpl.
  rewrite (mutate_first_twice _ (merge data x now1) (merge data x now2) st
             (merge_keeps_id data x now1 i)).
  apply mutate_first_ext. intros y. apply merge_merge.
Qed.

(** X19. [update_product] adds and removes no record and changes no id and
    no [created_at]: the catalog it leaves has, record by record, the ids
    and creation times of the catalog it met. *)
Theorem update_product_keeps_identity (i now : string) (data : fields)
    (st : list Product) :
  map (fun p => (id p, created_at p)) (snd (update_product i now data st))
  = map (fun p => (id p, created_at p)) st.
Proof.
  unfold update_product. destruct (next _ st) as [q|]; simpl; [|reflexivity].
  destruct (no_data data); simpl; [reflexivity|].
  destruct (new_price data q) as [x|]; simpl; [|reflexivity].
  apply mutate_first_map. reflexivity.
Qed.

(** X20. [delete_product] keeps exactly the products with another id, in
    their order: the catalog it leaves is the catalog it met with the
    products of that id struck out; [get_product] answers for any other id
    what it answered
    before, and deleting an id that no product has leaves the catalog as it
    was. *)
Theorem delete_product_keeps_others (i : string) (st : list Product) :
  (forall p, In p (snd (delete_product i st)) <-> In p st /\ id p <> i) /\
  (forall l1 l2 p, st = (l1 ++ p :: l2)%list ->
     snd (delete_product i st)
     = (snd (delete_product i l1)
        ++ (if (id p =? i)%string then [] else [p])
        ++ snd (delete_product i l2))%list) /\
  snd (delete_product i []) = [] /\
  (forall j, j <> i ->
     fst (get_product j (snd (delete_product i st))) = fst (get_product j st)) /\
  ((forall p, In p st -> id p <> i) -> snd (delete_product i st) = st).
Proof.
  unfold delete_product. simpl. split; [|split; [|split; [reflexivity|split]]].
  - intros p. rewrite filter_In, negb_true_iff, String.eqb_neq. reflexivity.
  - intros l1 l2 p ->. rewrite filter_app. simpl.
    now destruct (id p =? i)%string.
  - intros j Hj. unfold get_product.
    rewrite (next_filter_other (fun p => (id p =? j)%string)
               (fun p => negb (id p =? i)%string) st).
    + now destruct (next _ st).
    + intros p Hp. apply String.eqb_eq in Hp. subst j.
      apply negb_true_iff, String.eqb_neq. exact Hj.
  - intros H. apply filter_keeps_all. intros p Hp.
    apply negb_true_iff, String.eqb_neq. now apply H.
Qed.

Lemma delete_product_keeps_others_witness :
  fst (get_product "1" (snd (delete_product "3" products)))
  = fst (get_product "1" products).
Proof.
  apply (proj1 (proj2 (proj2 (proj2 (delete_product_keeps_others "3" products))))).
  discriminate.
Defined.

Lemma step_keeps_product_ids_distinct (r : request) (st : list Product) :
  NoDup (map id st) -> fresh r st = true -> NoDup (map id (step r st)).
Proof.
  intros Hnd Hf. destruct r as [uuid now d|i now d|i]; simpl.
  - unfold create_product.
    destruct (f_name d), (f_price d) as [v|], (f_category d); simpl; try exact Hnd.
    destruct (py_float v); simpl; [|exact Hnd].
    apply NoDup_map_app_last; [exact Hnd|].
    simpl in Hf. apply negb_true_iff in Hf. exact Hf.
  - unfold update_product. destruct (next _ st) as [q|]; simpl; [|exact Hnd].
    destruct (no_data d); simpl; [exact Hnd|].
    destruct (new_price d q) as [x|]; simpl; [|exact Hnd].
    now rewrite (mutate_first_map _ (merge d x now) id st (fun y => eq_refl)).
  - now apply NoDup_map_filter.
Qed.

(** X21. Product ids stay distinct: after any sequence of creations,
    updates and deletions served from the seeded catalog in which no
    creation generates an id that the catalog it meets already holds, no two
    products share an id. *)
Theorem product_ids_stay_distinct (rs : list request) :
  all_fresh rs products = true -> NoDup (map id (run rs products)).
Proof.
  assert (Hseed : NoDup (map id products)).
  { simpl. repeat constructor; simpl; intuition discriminate. }
  unfold run. revert Hseed. generalize products as st.
  induction rs as [|r rs IH]; intros st Hnd Hf; simpl; [exact Hnd|].
  simpl in Hf. apply andb_prop in Hf. destruct Hf as [Hr Hrs].
  apply IH; [|exact Hrs]. now apply step_keeps_product_ids_distinct.
Qed.

Lemma product_ids_stay_distinct_witness :
  NoDup (map id (run [ CreateProduct "u1" "2024-02-01T00:00:00" pen;
                       UpdateProduct "1" "2024-02-02T00:00:00" discount;
                       DeleteProduct "3";
                       CreateProduct "3" "2024-02-03T00:00:00" gift ] products)).
Proof.
  apply product_ids_stay_distinct. vm_compute. reflexivity.
Defined.

(** X22. A price bound that is a NaN matches no product: with [min_price]
    or [max_price] a NaN, [get_products] answers 200 with an empty listing
    and count 0, whatever the catalog and the other filters. *)
Theorem get_products_nan_bound (lower : string -> string) (c : option string)
    (m : option float) (now : string) (st : list Product) :
  get_products lower c (Some nan) m now st
  = ((Listing "product-service" [] 0 now, 200), st) /\
  get_products lower c m (Some nan) now st
  = ((Listing "product-service" [] 0 now, 200), st).
Proof.
  rewrite !ProductFacts.get_products_listing. unfold listProducts.
  split.
  - rewrite filter_none; [reflexivity|]. intros p. unfold satisfies.
    rewrite (proj1 (nan_leb (price p))). now rewrite andb_false_r.
  - rewrite filter_none; [reflexivity|]. intros p. unfold satisfies.
    rewrite (proj2 (nan_leb (price p))). now rewrite andb_false_r.
Qed.

End ProductMore.
